(** * The fhwise media player adapter

    A shallow embedding of
    [homeassistant/components/fhwise/media_player.py]: the entity
    [AbstractFhwisePlayer] with its command handlers and its poll cycle
    [async_update], and the platform setup [async_setup_platform].

    The handlers are Python coroutines that mutate [self], call the external
    device client and may raise.  They are written here in a state and error
    monad over the pair of the mutable object and the link to the device; the
    link records every remote call that was issued. *)

From Stdlib Require Import ZArith QArith Bool List String Lia.
Import ListNotations.

Local Open Scope Z_scope.

(** ** Python values *)

(** The values the device client hands back and the entity caches.  A float
    is modelled by the rational it denotes; every float operation of this
    file is a sum with 1, a product with [0.0625] or a quotient by [0.0625],
    and the last two are exact on binary floats (a change of exponent). *)
Inductive pyval : Type :=
| VNone
| VBool (b : bool)
| VInt (z : Z)
| VFloat (q : Q)
| VStr (s : string).

(** Instances of [Exception] that the code can meet.  [except Exception]
    catches each of them. *)
Inductive pyexn : Type :=
| DeviceError (msg : string)
| TypeError
| NameError
| PlatformNotReady.

(** [bool(v)]: what [if v:] tests. *)
Definition truthy (v : pyval) : bool :=
  match v with
  | VNone => false
  | VBool b => b
  | VInt z => negb (z =? 0)
  | VFloat q => negb (Qeq_bool q 0)
  | VStr s => negb (String.eqb s EmptyString)
  end.

(** The number a value stands for in arithmetic; [bool] is a subclass of
    [int]. *)
Definition as_number (v : pyval) : option Q :=
  match v with
  | VBool b => Some (inject_Z (Z.b2z b))
  | VInt z => Some (inject_Z z)
  | VFloat q => Some q
  | VNone | VStr _ => None
  end.

(** [v == 1]. *)
Definition py_eq_1 (v : pyval) : bool :=
  match as_number v with
  | Some q => Qeq_bool q 1
  | None => false
  end.

(** [v + 1] and [v - 1]. *)
Definition py_add_int (v : pyval) (k : Z) : pyval + pyexn :=
  match v with
  | VBool b => inl (VInt (Z.b2z b + k))
  | VInt z => inl (VInt (z + k))
  | VFloat q => inl (VFloat (q + inject_Z k))
  | VNone | VStr _ => inr TypeError
  end.

(** [v * 0.0625], [0.0625] being [1/16]. *)
Definition py_mul_0_0625 (v : pyval) : pyval + pyexn :=
  match as_number v with
  | Some q => inl (VFloat (q * (1 # 16)))
  | None => inr TypeError
  end.

(** [min(k, v)]: the builtin keeps its first argument unless a later one is
    strictly smaller. *)
Definition py_min_int (k : Z) (v : pyval) : pyval + pyexn :=
  match as_number v with
  | Some q => inl (if negb (Qle_bool (inject_Z k) q) then v else VInt k)
  | None => inr TypeError
  end.

(** [max(k, v)]: the builtin keeps its first argument unless a later one is
    strictly greater. *)
Definition py_max_int (k : Z) (v : pyval) : pyval + pyexn :=
  match as_number v with
  | Some q => inl (if negb (Qle_bool q (inject_Z k)) then v else VInt k)
  | None => inr TypeError
  end.

(** [int(x)] on a float: truncation towards zero. *)
Definition py_int (q : Q) : Z := Z.quot (Qnum q) (Zpos (Qden q)).

(** ** Constants of [homeassistant.const] *)

Inductive ha_state : Type :=
| STATE_OFF
| STATE_PAUSED
| STATE_PLAYING.

Definition ha_state_eqb (a b : ha_state) : bool :=
  match a, b with
  | STATE_OFF, STATE_OFF
  | STATE_PAUSED, STATE_PAUSED
  | STATE_PLAYING, STATE_PLAYING => true
  | _, _ => false
  end.

Definition DEFAULT_NAME : string := "fh wise media player".
Definition DEFAULT_PORT : Z := 8080.
Definition DEFAULT_SOUND_MODE : string := "Dummy Music".
Definition SOUND_MODE_LIST : list string := ["Dummy Music"; "Dummy Movie"]%string.

(** ** The device client *)

(** The methods of [fhwise.FhwisePlayer] that the adapter calls; the client
    is an external library, so a call is an event answered by the device. *)
Module Client.

Inductive call : Type :=
| FhwisePlayer (host : string) (port : Z)
| connect
| send_heartbeat
| disconnect
| send_play_pause
| set_volume_toggle_mute
| set_volume_level (vol : pyval)
| get_play_status
| get_volume_level.

(** A call returns a value or raises. *)
Inductive outcome : Type :=
| Returns (v : pyval)
| Raises (e : pyexn).

End Client.

(** ** The entity *)

(** The attributes of an [AbstractFhwisePlayer] instance.  [_state] is the
    attribute that the play-state handlers assign; [__init__] does not create
    it, hence the [option]. *)
Record player : Type := mkPlayer {
  _host : string;
  _port : Z;
  _model : pyval;
  _name : string;
  _player_state : ha_state;
  _state : option ha_state;
  _volume_level : pyval;
  _volume_muted : bool;
  _shuffle : bool;
  _sound_mode : string;
  _available : bool;
  _skip_update : bool;
  _cur_track : Z
}.

(** [FhwiseMusicPlayer.__init__], through [AbstractFhwisePlayer.__init__]. *)
Definition FhwiseMusicPlayer (host : string) (port : Z) (model : pyval)
    (name : string) : player :=
  {| _host := host; _port := port; _model := model; _name := name;
     _player_state := STATE_PLAYING;
     _state := None;
     _volume_level := VFloat 1;
     _volume_muted := false;
     _shuffle := false;
     _sound_mode := DEFAULT_SOUND_MODE;
     _available := false;
     _skip_update := false;
     _cur_track := 0 |}.

(** Attribute assignments. *)
Definition with_player_state (x : ha_state) (p : player) : player :=
  {| _host := _host p; _port := _port p; _model := _model p; _name := _name p;
     _player_state := x; _state := _state p;
     _volume_level := _volume_level p; _volume_muted := _volume_muted p;
     _shuffle := _shuffle p; _sound_mode := _sound_mode p;
     _available := _available p; _skip_update := _skip_update p;
     _cur_track := _cur_track p |}.

Definition with_state (x : ha_state) (p : player) : player :=
  {| _host := _host p; _port := _port p; _model := _model p; _name := _name p;
     _player_state := _player_state p; _state := Some x;
     _volume_level := _volume_level p; _volume_muted := _volume_muted p;
     _shuffle := _shuffle p; _sound_mode := _sound_mode p;
     _available := _available p; _skip_update := _skip_update p;
     _cur_track := _cur_track p |}.

Definition with_volume_level (x : pyval) (p : player) : player :=
  {| _host := _host p; _port := _port p; _model := _model p; _name := _name p;
     _player_state := _player_state p; _state := _state p;
     _volume_level := x; _volume_muted := _volume_muted p;
     _shuffle := _shuffle p; _sound_mode := _sound_mode p;
     _available := _available p; _skip_update := _skip_update p;
     _cur_track := _cur_track p |}.

Definition with_volume_muted (x : bool) (p : player) : player :=
  {| _host := _host p; _port := _port p; _model := _model p; _name := _name p;
     _player_state := _player_state p; _state := _state p;
     _volume_level := _volume_level p; _volume_muted := x;
     _shuffle := _shuffle p; _sound_mode := _sound_mode p;
     _available := _available p; _skip_update := _skip_update p;
     _cur_track := _cur_track p |}.

Definition with_available (x : bool) (p : player) : player :=
  {| _host := _host p; _port := _port p; _model := _model p; _name := _name p;
     _player_state := _player_state p; _state := _state p;
     _volume_level := _volume_level p; _volume_muted := _volume_muted p;
     _shuffle := _shuffle p; _sound_mode := _sound_mode p;
     _available := x; _skip_update := _skip_update p;
     _cur_track := _cur_track p |}.

Definition with_skip_update (x : bool) (p : player) : player :=
  {| _host := _host p; _port := _port p; _model := _model p; _name := _name p;
     _player_state := _player_state p; _state := _state p;
     _volume_level := _volume_level p; _volume_muted := _volume_muted p;
     _shuffle := _shuffle p; _sound_mode := _sound_mode p;
     _available := _available p; _skip_update := x;
     _cur_track := _cur_track p |}.

(** The properties of the entity that the host reads. *)
Definition available (p : player) : bool := _available p.
Definition state (p : player) : ha_state := _player_state p.
Definition volume_level (p : player) : pyval + pyexn :=
  py_mul_0_0625 (_volume_level p).
Definition is_volume_muted (p : player) : bool := _volume_muted p.

(** ** Running code against a device *)

Section Adapter.

(** The device behind the client: a state and the answer it gives to each
    call. *)
Variable D : Type.
Variable dev_call : Client.call -> D -> Client.outcome * D.

(** What a piece of code runs in: the object it mutates ([self] for a
    method, the host's list of entities for the setup), the device, and
    the remote calls issued so far, oldest first. *)
Record world (S : Type) : Type := mkWorld {
  obj : S;
  dev : D;
  calls : list Client.call
}.
Arguments mkWorld {S}.
Arguments obj {S}.
Arguments dev {S}.
Arguments calls {S}.

(** A computation ends normally with a value or with a raised exception;
    either way the mutations made so far remain. *)
Definition M (S A : Type) : Type := world S -> (A + pyexn) * world S.

Definition ret {S A} (a : A) : M S A := fun w => (inl a, w).

Definition raise {S A} (e : pyexn) : M S A := fun w => (inr e, w).

Definition bind {S A B} (m : M S A) (k : A -> M S B) : M S B :=
  fun w =>
    match m w with
    | (inl a, w') => k a w'
    | (inr e, w') => (inr e, w')
    end.

(** [try: m / except Exception: h]. *)
Definition try_except {S A} (m : M S A) (h : pyexn -> M S A) : M S A :=
  fun w =>
    match m w with
    | (inl a, w') => (inl a, w')
    | (inr e, w') => h e w'
    end.

(** The result of a pure expression that may raise. *)
Definition eval {S A} (r : A + pyexn) : M S A := fun w => (r, w).

Definition read {S} : M S S := fun w => (inl (obj w), w).

Definition assign {S} (f : S -> S) : M S unit :=
  fun w => (inl tt, mkWorld (f (obj w)) (dev w) (calls w)).

(** One call of a client method: the device answers and the call is
    recorded. *)
Definition remote {S} (c : Client.call) : M S pyval :=
  fun w =>
    let (o, d) := dev_call c (dev w) in
    let w' := mkWorld (obj w) d (calls w ++ [c]) in
    match o with
    | Client.Returns v => (inl v, w')
    | Client.Raises e => (inr e, w')
    end.

Notation "x <- m ;; k" := (bind m (fun x => k))
  (at level 61, m at next level, right associativity).
Notation "m ;; k" := (bind m (fun _ => k))
  (at level 61, right associativity).

(** ** The command handlers *)

(** [_try_command]: run the client method on the executor; an exception is
    logged, clears [_available] and becomes the result [False].  Logging
    changes nothing that is modelled. *)
Definition _try_command (mask_error : string) (func : Client.call)
  : M player pyval :=
  try_except
    (result <- remote func ;;
     ret result)
    (fun _ =>
       assign (with_available false) ;;
       ret (VBool false)).

Definition async_turn_on : M player unit :=
  self <- read ;;
  if negb (ha_state_eqb (_player_state self) STATE_PLAYING) then
    result <- _try_command "Turning the player on failed."
                Client.send_play_pause ;;
    if truthy result then
      assign (with_state STATE_PLAYING) ;;
      assign (with_skip_update true)
    else ret tt
  else ret tt.

Definition async_turn_off : M player unit :=
  self <- read ;;
  if ha_state_eqb (_player_state self) STATE_PLAYING then
    result <- _try_command "Turning the player off failed."
                Client.send_play_pause ;;
    if truthy result then
      assign (with_state STATE_OFF) ;;
      assign (with_skip_update true)
    else ret tt
  else ret tt.

Definition mute_volume (mute : bool) : M player unit :=
  self <- read ;;
  if negb (Bool.eqb (_volume_muted self) mute) then
    result <- _try_command "Mute the player failed."
                Client.set_volume_toggle_mute ;;
    if truthy result then
      assign (with_volume_muted mute) ;;
      assign (with_skip_update true)
    else ret tt
  else ret tt.

Definition volume_up : M player unit :=
  self <- read ;;
  level <- eval (py_add_int (_volume_level self) 1) ;;
  vol <- eval (py_min_int 15 level) ;;
  result <- _try_command "Set volume level failed."
              (Client.set_volume_level vol) ;;
  if truthy result then
    assign (with_volume_level vol) ;;
    assign (with_skip_update true)
  else ret tt.

Definition volume_down : M player unit :=
  self <- read ;;
  level <- eval (py_add_int (_volume_level self) (-1)) ;;
  vol <- eval (py_max_int 0 level) ;;
  result <- _try_command "Set volume level failed."
              (Client.set_volume_level vol) ;;
  if truthy result then
    assign (with_volume_level vol) ;;
    assign (with_skip_update true)
  else ret tt.

(** The host passes [volume] as a float; [volume / 0.0625] is then a float
    and [int] truncates it. *)
Definition set_volume_level (volume : Q) : M player unit :=
  let vol := VInt (py_int (volume / (1 # 16))) in
  result <- _try_command "Set volume level failed."
              (Client.set_volume_level vol) ;;
  if truthy result then
    assign (with_volume_level vol) ;;
    assign (with_skip_update true)
  else ret tt.

Definition media_play : M player unit :=
  self <- read ;;
  if negb (ha_state_eqb (_player_state self) STATE_PLAYING) then
    result <- _try_command "Turning the player on failed."
                Client.send_play_pause ;;
    if truthy result then
      assign (with_state STATE_PLAYING) ;;
      assign (with_skip_update true)
    else ret tt
  else ret tt.

Definition media_pause : M player unit :=
  self <- read ;;
  if ha_state_eqb (_player_state self) STATE_PLAYING then
    result <- _try_command "Turning the player off failed."
                Client.send_play_pause ;;
    if truthy result then
      assign (with_state STATE_OFF) ;;
      assign (with_skip_update true)
    else ret tt
  else ret tt.

(** ** The poll cycle *)

(** The handler of the outer [try] calls [traceback.print_exc()], and the
    module does not import [traceback]: reaching it raises [NameError]. *)
Definition async_update : M player unit :=
  self <- read ;;
  if _skip_update self then
    assign (with_skip_update false)
  else
    try_except
      (play_state <- _try_command "Get play status failed."
                       Client.get_play_status ;;
       (if py_eq_1 play_state then
          assign (with_player_state STATE_PLAYING)
        else
          assign (with_player_state STATE_PAUSED)) ;;
       vol_level <- _try_command "Get volume level failed"
                      Client.get_volume_level ;;
       assign (with_volume_level vol_level) ;;
       (if truthy vol_level then
          assign (with_volume_muted true)
        else
          assign (with_volume_muted false)) ;;
       assign (with_available true))
      (fun _ =>
         assign (with_available false) ;;
         raise NameError).

(** ** The commands of the host *)

Inductive command : Type :=
| TurnOn
| TurnOff
| MuteVolume (mute : bool)
| VolumeUp
| VolumeDown
| SetVolumeLevel (volume : Q)
| MediaPlay
| MediaPause.

Definition handler (c : command) : M player unit :=
  match c with
  | TurnOn => async_turn_on
  | TurnOff => async_turn_off
  | MuteVolume mute => mute_volume mute
  | VolumeUp => volume_up
  | VolumeDown => volume_down
  | SetVolumeLevel volume => set_volume_level volume
  | MediaPlay => media_play
  | MediaPause => media_pause
  end.

(** ** Platform setup *)

Record config : Type := mkConfig {
  CONF_HOST : string;
  CONF_PORT : Z;
  CONF_NAME : string
}.

(** [async_add_entities], a callback of the host: the entities join the
    host's list. *)
Definition async_add_entities (new : list player) : M (list player) unit :=
  assign (fun entities => entities ++ new).

Definition async_setup_platform (cfg : config) : M (list player) unit :=
  let host := CONF_HOST cfg in
  let name := CONF_NAME cfg in
  let port := CONF_PORT cfg in
  model <- try_except
             (remote (Client.FhwisePlayer host port) ;;
              remote Client.connect ;;
              model <- remote Client.send_heartbeat ;;
              remote Client.disconnect ;;
              ret model)
             (fun _ => raise PlatformNotReady) ;;
  async_add_entities [FhwiseMusicPlayer host port model name].

(** Every handler ends in one of three ways: it raised before any remote
    call and changed nothing; it skipped its remote call and changed
    nothing; or it issued exactly one remote call. *)
Inductive ending (c : command) (w : world player)
  : (unit + pyexn) * world player -> Prop :=
| Raised_before e :
    ending c w (inr e, w)
| Skipped :
    ending c w (inl tt, w)
| Called k o d p :
    dev_call k (dev w) = (o, d) ->
    (match o with
     | Client.Raises _ => p = with_available false (obj w)
     | Client.Returns v =>
         if truthy v then
           _skip_update p = true /\
           _player_state p = _player_state (obj w) /\
           _available p = _available (obj w)
         else p = obj w
     end) ->
    ending c w (inl tt, mkWorld p d (calls w ++ [k])).

End Adapter.

Arguments mkWorld {D S}.
Arguments obj {D S}.
Arguments dev {D S}.
Arguments calls {D S}.

(** ** A scripted device *)

(** A device that answers the calls it receives with a prepared list of
    outcomes, whatever the calls are, and stops answering once the list is
    used up. *)
Definition script : Type := list Client.outcome.

Definition script_call (c : Client.call) (s : script)
  : Client.outcome * script :=
  match s with
  | [] => (Client.Raises (DeviceError "connection lost"), [])
  | o :: s' => (o, s')
  end.

(** The entity that the setup creates for a device of model [FH-A8]. *)
Definition fresh_player : player :=
  FhwiseMusicPlayer "192.168.1.20" DEFAULT_PORT (VStr "FH-A8") DEFAULT_NAME.

(** The same entity after a poll that found the device paused at level 7. *)
Definition paused_player : player :=
  with_available true
    (with_volume_muted true
       (with_volume_level (VInt 7)
          (with_player_state STATE_PAUSED fresh_player))).

(** The same entity after a poll that found the device playing at level 7. *)
Definition playing_player : player :=
  with_player_state STATE_PLAYING paused_player.

Definition on_script (p : player) (s : script) : world script player :=
  mkWorld p s [].

Definition home_config : config :=
  mkConfig "192.168.1.20" DEFAULT_PORT DEFAULT_NAME.

(** What [_try_command] hands back for an outcome of the client method: the
    value returned, or [False] when the method raised. *)
Definition received (o : Client.outcome) : pyval :=
  match o with
  | Client.Returns v => v
  | Client.Raises _ => VBool false
  end.

(** The world after one remote call [c] that left the device in [d]. *)
Definition answered {D S} (w : world D S) (c : Client.call) (d : D)
  : world D S :=
  mkWorld (obj w) d (calls w ++ [c]).

(** ** The life of an entity *)

(** Three more properties of the entity that the host reads. *)
Definition name (p : player) : string := _name p.
Definition shuffle (p : player) : bool := _shuffle p.
Definition sound_mode (p : player) : string := _sound_mode p.

(** What the host does with an entity once it is set up: it forwards a
    command or it runs a poll cycle.  The host logs an exception that a
    handler raises and goes on with the same object. *)
Inductive event : Type :=
| Command (c : command)
| Poll.

Definition occur {D} (dev_call : Client.call -> D -> Client.outcome * D)
    (e : event) (w : world D player) : world D player :=
  match e with
  | Command c => snd (handler D dev_call c w)
  | Poll => snd (async_update D dev_call w)
  end.

Fixpoint occur_all {D} (dev_call : Client.call -> D -> Client.outcome * D)
    (es : list event) (w : world D player) : world D player :=
  match es with
  | [] => w
  | e :: es' => occur_all dev_call es' (occur dev_call e w)
  end.


(** The stored volume level is a number between [lo] and [hi]. *)
Definition level_within (lo hi : Q) (p : player) : Prop :=
  exists q : Q, as_number (_volume_level p) = Some q /\ (lo <= q <= hi)%Q.

(** The host forwards [set_volume_level] with a volume of the range 0..1;
    the other commands carry no number. *)
Definition unit_volume (e : event) : Prop :=
  match e with
  | Command (SetVolumeLevel volume) => (0 <= volume <= 1)%Q
  | _ => True
  end.

(** A command, as opposed to a poll cycle. *)
Definition is_command (e : event) : Prop :=
  match e with
  | Command _ => True
  | Poll => False
  end.

(** * Properties *)

Section AdapterProperties.

Context {D : Type}.
Variable dev_call : Client.call -> D -> Client.outcome * D.

Local Notation run := (handler D dev_call).
Local Notation poll := (async_update D dev_call).
Local Notation try_command := (_try_command D dev_call).

(** [_try_command] never raises: it returns what the client returned, or
    [False] with [_available] cleared. *)
Lemma try_command_eq (msg : string) (c : Client.call) (w : world D player) :
  try_command msg c w =
  match dev_call c (dev w) with
  | (Client.Returns v, d) => (inl v, answered w c d)
  | (Client.Raises _, d) =>
      (inl (VBool false),
       mkWorld (with_available false (obj w)) d (calls w ++ [c]))
  end.
Proof.
  unfold _try_command, try_except, bind, remote, ret, assign, answered.
  destruct (dev_call c (dev w)) as [[v | e] d]; reflexivity.
Qed.

Lemma calls_grow_inv {A} (l : list A) (x y : A) :
  l ++ [x] = l ++ [y] -> x = y.
Proof.
  intros H. apply app_inv_head in H. now inversion H.
Qed.

Lemma calls_same_inv {A} (l : list A) (x : A) : l <> l ++ [x].
Proof.
  intros H. apply (f_equal (@List.length A)) in H.
  rewrite length_app in H. simpl in H. lia.
Qed.

(** Unfolds a handler down to the answers of the device. *)
Ltac unfold_monad :=
  unfold bind, eval, read, ret, raise, assign, try_except;
  cbn -[_try_command truthy py_add_int py_min_int py_max_int].

Ltac unfold_handler :=
  unfold handler, async_turn_on, async_turn_off, mute_volume, volume_up,
    volume_down, set_volume_level, media_play, media_pause;
  unfold_monad.

Lemma handler_ending (c : command) (w : world D player) :
  ending D dev_call c w (run c w).
Proof.
  destruct w as [p d0 l].
  destruct c; unfold_handler.
  all: repeat match goal with
       | |- context [if ?b then _ else _] =>
           lazymatch b with
           | truthy _ => fail
           | _ => destruct b eqn:?
           end
       | |- context [py_add_int ?v ?k] =>
           destruct (py_add_int v k) eqn:?; unfold_monad
       | |- context [py_min_int ?k ?v] =>
           destruct (py_min_int k v) eqn:?; unfold_monad
       | |- context [py_max_int ?k ?v] =>
           destruct (py_max_int k v) eqn:?; unfold_monad
       end.
  all: try (apply Skipped).
  all: try (apply Raised_before).
  all: rewrite try_command_eq; cbn [dev obj calls].
  all: match goal with
       | |- context [dev_call ?k ?d1] =>
           destruct (dev_call k d1) as [[v | e] d] eqn:E
       end.
  all: unfold answered; cbn [dev obj calls].
  all: try (destruct (truthy v) eqn:T); cbn.
  all: eapply Called; [exact E | cbn; rewrite ?T; auto].
Qed.


Lemma try_command_received (msg : string) (c : Client.call)
    (w : world D player) :
  fst (try_command msg c w) = inl (received (fst (dev_call c (dev w)))).
Proof.
  rewrite try_command_eq.
  destruct (dev_call c (dev w)) as [[v | e] d]; reflexivity.
Qed.

(** A poll cycle that finds the skip flag set only clears it. *)
Lemma poll_skipped (w : world D player) :
  _skip_update (obj w) = true ->
  poll w = (inl tt, mkWorld (with_skip_update false (obj w)) (dev w) (calls w)).
Proof.
  intros H. unfold async_update, bind, read, assign. cbn. now rewrite H.
Qed.

(** A poll cycle that finds the skip flag clear issues both reads, whatever
    they answer, returns normally, and assigns every field from what
    [_try_command] handed back. *)
Lemma poll_queried (w : world D player) (o1 o2 : Client.outcome) (d1 d2 : D) :
  _skip_update (obj w) = false ->
  dev_call Client.get_play_status (dev w) = (o1, d1) ->
  dev_call Client.get_volume_level d1 = (o2, d2) ->
  fst (poll w) = inl tt /\
  dev (snd (poll w)) = d2 /\
  calls (snd (poll w)) =
    calls w ++ [Client.get_play_status; Client.get_volume_level] /\
  _player_state (obj (snd (poll w))) =
    (if py_eq_1 (received o1) then STATE_PLAYING else STATE_PAUSED) /\
  _volume_level (obj (snd (poll w))) = received o2 /\
  _volume_muted (obj (snd (poll w))) = truthy (received o2) /\
  _available (obj (snd (poll w))) = true /\
  _skip_update (obj (snd (poll w))) = false /\
  _state (obj (snd (poll w))) = _state (obj w).
Proof.
  intros Hskip H1 H2.
  destruct w as [p d0 l]. cbn [obj dev calls] in *.
  unfold async_update. unfold_monad. rewrite Hskip.
  rewrite try_command_eq. cbn [obj dev calls]. rewrite H1.
  destruct o1 as [v1 | e1]; unfold answered; cbn [obj dev calls received].
  all: destruct (py_eq_1 _); cbn -[_try_command truthy].
  all: rewrite try_command_eq; cbn [obj dev calls]; rewrite H2.
  all: destruct o2 as [v2 | e2]; unfold answered; cbn [obj dev calls received].
  all: try (destruct (truthy v2) eqn:T); cbn.
  all: rewrite <- app_assoc; cbn.
  all: repeat split; auto.
Qed.

(** The answer that decided a handler which issued call [k]. *)
Lemma issued_call_answer (c : command) (w : world D player) (k : Client.call)
    (o : Client.outcome) (d : D) :
  calls (snd (run c w)) = calls w ++ [k] ->
  dev_call k (dev w) = (o, d) ->
  fst (run c w) = inl tt /\
  dev (snd (run c w)) = d /\
  match o with
  | Client.Raises _ => obj (snd (run c w)) = with_available false (obj w)
  | Client.Returns v =>
      if truthy v then
        _skip_update (obj (snd (run c w))) = true /\
        _available (obj (snd (run c w))) = _available (obj w)
      else obj (snd (run c w)) = obj w
  end.
Proof.
  intros Hcalls Hans.
  destruct (handler_ending c w) as [e | | k' o' d' p Hans' Hp];
    cbn [fst snd obj dev calls] in *.
  - now apply calls_same_inv in Hcalls.
  - now apply calls_same_inv in Hcalls.
  - apply calls_grow_inv in Hcalls. subst k'.
    rewrite Hans in Hans'. inversion Hans'; subst o' d'.
    repeat split; auto.
    destruct o as [v | e]; auto.
    destruct (truthy v); tauto.
Qed.

(** C10: whatever command handler runs, and whether its remote call
    succeeds, fails or is skipped by the redundancy guard, [_player_state],
    and with it the [state] property, is the same after the call as before;
    among the methods of the entity only [async_update] assigns it. *)
Theorem handler_keeps_player_state (c : command) (w : world D player) :
  _player_state (obj (snd (run c w))) = _player_state (obj w) /\
  state (obj (snd (run c w))) = state (obj w).
Proof.
  unfold state.
  destruct (handler_ending c w) as [e | | k o d p Hans Hp];
    cbn [snd obj]; auto.
  destruct o as [v | e].
  - destruct (truthy v).
    + destruct Hp as (_ & Hp & _). now rewrite Hp.
    + now subst p.
  - now subst p.
Qed.

(** C7: when the cached play state is [STATE_PLAYING], [async_turn_on] and
    [media_play] issue no remote call and change nothing; when it is not
    [STATE_PLAYING], [async_turn_off] and [media_pause] issue no remote call
    and change nothing; and [mute_volume mute] issues no remote call and
    changes nothing when the cached mute flag already is [mute]. *)
Theorem redundant_command_is_noop (w : world D player) :
  (_player_state (obj w) = STATE_PLAYING ->
   async_turn_on D dev_call w = (inl tt, w) /\
   media_play D dev_call w = (inl tt, w)) /\
  (_player_state (obj w) <> STATE_PLAYING ->
   async_turn_off D dev_call w = (inl tt, w) /\
   media_pause D dev_call w = (inl tt, w)) /\
  (forall mute : bool,
   _volume_muted (obj w) = mute ->
   mute_volume D dev_call mute w = (inl tt, w)).
Proof.
  split; [| split]; [intros H; split | intros H; split | intros mute H].
  - unfold async_turn_on. unfold_monad. now rewrite H.
  - unfold media_play. unfold_monad. now rewrite H.
  - unfold async_turn_off. unfold_monad.
    destruct (_player_state (obj w)); try reflexivity. now elim H.
  - unfold media_pause. unfold_monad.
    destruct (_player_state (obj w)); try reflexivity. now elim H.
  - unfold mute_volume. unfold_monad.
    rewrite H. now rewrite Bool.eqb_reflx.
Qed.

(** C5: when the remote call of a command handler raises, the handler
    returns normally, the cached play state, volume level and mute flag are
    what they were before the call, and the availability flag is false. *)
Theorem raising_call_keeps_cache (c : command) (w : world D player)
    (k : Client.call) (e : pyexn) (d : D) :
  calls (snd (run c w)) = calls w ++ [k] ->
  dev_call k (dev w) = (Client.Raises e, d) ->
  fst (run c w) = inl tt /\
  state (obj (snd (run c w))) = state (obj w) /\
  _state (obj (snd (run c w))) = _state (obj w) /\
  _volume_level (obj (snd (run c w))) = _volume_level (obj w) /\
  is_volume_muted (obj (snd (run c w))) = is_volume_muted (obj w) /\
  available (obj (snd (run c w))) = false.
Proof.
  intros Hcalls Hans.
  destruct (issued_call_answer c w k _ d Hcalls Hans) as (Hret & _ & Hobj).
  rewrite Hobj. repeat split; auto.
Qed.

(** C6, as the code has it: when the remote call of a command handler
    returns a falsy value without raising, the entity is left as it was,
    availability flag included, and the handler returns normally; when the
    remote call raises, the handler returns normally too. *)
Theorem falsy_call_changes_nothing (c : command) (w : world D player)
    (k : Client.call) :
  calls (snd (run c w)) = calls w ++ [k] ->
  (forall (v : pyval) (d : D),
     dev_call k (dev w) = (Client.Returns v, d) ->
     truthy v = false ->
     run c w = (inl tt, answered w k d)) /\
  (forall (e : pyexn) (d : D),
     dev_call k (dev w) = (Client.Raises e, d) ->
     fst (run c w) = inl tt).
Proof.
  intros Hcalls. split.
  - intros v d Hans Hv.
    destruct (issued_call_answer c w k _ d Hcalls Hans) as (Hret & Hdev & Hobj).
    rewrite Hv in Hobj.
    destruct (run c w) as [r [p d' l]]. cbn [fst snd obj dev calls] in *.
    unfold answered. congruence.
  - intros e d Hans.
    now destruct (issued_call_answer c w k _ d Hcalls Hans).
Qed.

(** C4: after a command whose remote call succeeded the skip flag is set;
    the next [async_update] only clears it, issuing no remote read and
    changing no other field; the [async_update] after that issues both
    reads; and no [async_update] leaves the flag set. *)
Theorem skip_flag_consumed_once (c : command) (w : world D player)
    (k : Client.call) (v : pyval) (d : D) :
  calls (snd (run c w)) = calls w ++ [k] ->
  dev_call k (dev w) = (Client.Returns v, d) ->
  truthy v = true ->
  let w1 := snd (run c w) in
  let w2 := snd (poll w1) in
  let w3 := snd (poll w2) in
  _skip_update (obj w1) = true /\
  poll w1 =
    (inl tt, mkWorld (with_skip_update false (obj w1)) (dev w1) (calls w1)) /\
  calls w3 =
    calls w2 ++ [Client.get_play_status; Client.get_volume_level] /\
  (forall w' : world D player, _skip_update (obj (snd (poll w'))) = false).
Proof.
  intros Hcalls Hans Hv w1 w2 w3.
  destruct (issued_call_answer c w k _ d Hcalls Hans) as (_ & _ & Hobj).
  rewrite Hv in Hobj. destruct Hobj as [Hskip _].
  assert (Hpoll : forall w' : world D player,
             _skip_update (obj (snd (poll w'))) = false).
  { intros w'. destruct (_skip_update (obj w')) eqn:E.
    - now rewrite (poll_skipped w' E).
    - destruct (dev_call Client.get_play_status (dev w')) as [o1 d1] eqn:E1.
      destruct (dev_call Client.get_volume_level d1) as [o2 d2] eqn:E2.
      now destruct (poll_queried w' o1 o2 d1 d2 E E1 E2)
        as (_ & _ & _ & _ & _ & _ & _ & H & _). }
  repeat split; auto.
  - now apply poll_skipped.
  - subst w3.
    destruct (dev_call Client.get_play_status (dev w2)) as [o1 d1] eqn:E1.
    destruct (dev_call Client.get_volume_level d1) as [o2 d2] eqn:E2.
    now destruct (poll_queried w2 o1 o2 d1 d2 (Hpoll w1) E1 E2)
      as (_ & _ & H & _).
Qed.

(** C8: in a poll cycle whose two remote reads succeed, the entity becomes
    available, the cached volume level is the value that [get_volume_level]
    returned, and the mute flag is its truth value: true for a nonzero level,
    false for zero. *)
Theorem successful_poll_refreshes (w : world D player) (v1 v2 : pyval)
    (d1 d2 : D) :
  _skip_update (obj w) = false ->
  dev_call Client.get_play_status (dev w) = (Client.Returns v1, d1) ->
  dev_call Client.get_volume_level d1 = (Client.Returns v2, d2) ->
  fst (poll w) = inl tt /\
  available (obj (snd (poll w))) = true /\
  _volume_level (obj (snd (poll w))) = v2 /\
  is_volume_muted (obj (snd (poll w))) = truthy v2 /\
  (forall z : Z, v2 = VInt z ->
     is_volume_muted (obj (snd (poll w))) = negb (z =? 0)).
Proof.
  intros Hskip H1 H2.
  destruct (poll_queried w _ _ d1 d2 Hskip H1 H2)
    as (Hret & _ & _ & _ & Hvol & Hmute & Hav & _).
  cbn [received] in *. unfold available, is_volume_muted.
  repeat split; auto.
  intros z ->. now rewrite Hmute.
Qed.

(** C9: when a step of the handshake (constructing the client, [connect],
    [send_heartbeat], [disconnect]) raises, the setup raises
    [PlatformNotReady] and adds no entity; when the four steps succeed, the
    setup returns normally and adds exactly one entity. *)
Theorem setup_handshake (cfg : config) (w : world D (list player)) :
  let host := CONF_HOST cfg in
  let port := CONF_PORT cfg in
  let setup := async_setup_platform D dev_call cfg w in
  let not_ready := fst setup = inr PlatformNotReady /\ obj (snd setup) = obj w in
  (forall e d1,
     dev_call (Client.FhwisePlayer host port) (dev w) = (Client.Raises e, d1) ->
     not_ready) /\
  (forall v1 d1 e d2,
     dev_call (Client.FhwisePlayer host port) (dev w) = (Client.Returns v1, d1) ->
     dev_call Client.connect d1 = (Client.Raises e, d2) ->
     not_ready) /\
  (forall v1 d1 v2 d2 e d3,
     dev_call (Client.FhwisePlayer host port) (dev w) = (Client.Returns v1, d1) ->
     dev_call Client.connect d1 = (Client.Returns v2, d2) ->
     dev_call Client.send_heartbeat d2 = (Client.Raises e, d3) ->
     not_ready) /\
  (forall v1 d1 v2 d2 model d3 e d4,
     dev_call (Client.FhwisePlayer host port) (dev w) = (Client.Returns v1, d1) ->
     dev_call Client.connect d1 = (Client.Returns v2, d2) ->
     dev_call Client.send_heartbeat d2 = (Client.Returns model, d3) ->
     dev_call Client.disconnect d3 = (Client.Raises e, d4) ->
     not_ready) /\
  (forall v1 d1 v2 d2 model d3 v4 d4,
     dev_call (Client.FhwisePlayer host port) (dev w) = (Client.Returns v1, d1) ->
     dev_call Client.connect d1 = (Client.Returns v2, d2) ->
     dev_call Client.send_heartbeat d2 = (Client.Returns model, d3) ->
     dev_call Client.disconnect d3 = (Client.Returns v4, d4) ->
     fst setup = inl tt /\
     obj (snd setup) =
       obj w ++ [FhwiseMusicPlayer host port model (CONF_NAME cfg)]).
Proof.
  intros host port setup not_ready.
  subst not_ready setup host port.
  unfold async_setup_platform, async_add_entities, remote.
  unfold bind, try_except, ret, raise, assign.
  repeat split; intros.
  all: repeat match goal with
       | H : dev_call _ _ = _ |- _ => cbn [dev obj calls]; rewrite H; clear H
       end.
  all: reflexivity.
Qed.

(** ** The stored volume level *)

Lemma py_add_int_number (v : pyval) (k : Z) (q : Q) :
  as_number v = Some q ->
  exists v' q', py_add_int v k = inl v' /\ as_number v' = Some q' /\
                q' == q + inject_Z k.
Proof.
  destruct v as [| b | z | x | s]; cbn; intros H; inversion H; subst.
  - eexists _, _. repeat split. now rewrite inject_Z_plus.
  - eexists _, _. repeat split. now rewrite inject_Z_plus.
  - eexists _, _. repeat split; try reflexivity.
Qed.

(** [volume_up] and [volume_down] keep a level of the range 0..15 in that
    range, whatever the device answers. *)
Lemma volume_step_in_range (c : command) (w : world D player) (q : Q) :
  c = VolumeUp \/ c = VolumeDown ->
  as_number (_volume_level (obj w)) = Some q ->
  (0 <= q <= 15)%Q ->
  exists q', as_number (_volume_level (obj (snd (run c w)))) = Some q' /\
             (0 <= q' <= 15)%Q.
Proof.
  intros Hc Hq Hrange.
  destruct w as [p d0 l]. cbn [obj] in *.
  destruct Hc; subst c; unfold_handler.
  - destruct (py_add_int_number _ 1 q Hq) as (v' & q' & -> & Hq' & E).
    unfold py_min_int. rewrite Hq'.
    rewrite try_command_eq. cbn [obj dev calls].
    destruct (dev_call _ d0) as [[r | e] d]; unfold answered; cbn [obj].
    2: { cbn. exists q. now split. }
    destruct (truthy r); cbn [obj snd].
    2: { exists q. now split. }
    cbn [obj with_skip_update with_volume_level _volume_level].
    destruct (Qle_bool (inject_Z 15) q') eqn:B; cbn [negb].
    + eexists. split; [reflexivity |]. split; discriminate.
    + exists q'. split; [assumption |].
      assert (N : ~ (inject_Z 15 <= q')%Q)
        by (rewrite <- Qle_bool_iff; congruence).
      apply Qnot_le_lt in N. split.
      * rewrite E. apply Qle_trans with (q + 0)%Q; [now rewrite Qplus_0_r |].
        apply Qplus_le_r. discriminate.
      * now apply Qlt_le_weak.
  - destruct (py_add_int_number _ (-1) q Hq) as (v' & q' & -> & Hq' & E).
    unfold py_max_int. rewrite Hq'.
    rewrite try_command_eq. cbn [obj dev calls].
    destruct (dev_call _ d0) as [[r | e] d]; unfold answered; cbn [obj].
    2: { cbn. exists q. now split. }
    destruct (truthy r); cbn [obj snd].
    2: { exists q. now split. }
    cbn [obj with_skip_update with_volume_level _volume_level].
    destruct (Qle_bool q' (inject_Z 0)) eqn:B; cbn [negb].
    + eexists. split; [reflexivity |]. split; discriminate.
    + exists q'. split; [assumption |].
      assert (N : ~ (q' <= inject_Z 0)%Q)
        by (rewrite <- Qle_bool_iff; congruence).
      apply Qnot_le_lt in N. split.
      * now apply Qlt_le_weak.
      * rewrite E. apply Qle_trans with (q + 0)%Q; [| now rewrite Qplus_0_r].
        apply Qplus_le_r. discriminate.
Qed.

(** [set_volume_level] sends and stores a level of the range 0..16 for a
    volume of the range 0..1. *)
Lemma set_volume_level_in_range (volume : Q) :
  (0 <= volume <= 1)%Q ->
  (0 <= py_int (volume / (1 # 16)) <= 16)%Z.
Proof.
  destruct volume as [n d]. unfold Qle, py_int. cbn.
  intros [H0 H1].
  rewrite Z.quot_div_nonneg by lia.
  split.
  - apply Z.div_pos; lia.
  - apply Z.div_le_upper_bound; lia.
Qed.

End AdapterProperties.

(** * The code on concrete devices *)

(** C1: the play-state handlers assign [_state], and the [state] property
    reads [_player_state].  After a successful [send_play_pause] the skip
    flag is set, yet [state] still reads the old value: [STATE_PAUSED] after
    turning on or playing, [STATE_PLAYING] after turning off or pausing. *)
Theorem play_state_handlers_miss_cached_state :
  let on := on_script paused_player [Client.Returns (VBool true)] in
  let off := on_script playing_player [Client.Returns (VBool true)] in
  let turned_on := snd (async_turn_on script script_call on) in
  let played := snd (media_play script script_call on) in
  let turned_off := snd (async_turn_off script script_call off) in
  let paused := snd (media_pause script script_call off) in
  (calls turned_on = [Client.send_play_pause] /\
   state (obj turned_on) = STATE_PAUSED /\
   _state (obj turned_on) = Some STATE_PLAYING /\
   _skip_update (obj turned_on) = true) /\
  (calls played = [Client.send_play_pause] /\
   state (obj played) = STATE_PAUSED /\
   _state (obj played) = Some STATE_PLAYING /\
   _skip_update (obj played) = true) /\
  (calls turned_off = [Client.send_play_pause] /\
   state (obj turned_off) = STATE_PLAYING /\
   _state (obj turned_off) = Some STATE_OFF /\
   _skip_update (obj turned_off) = true) /\
  (calls paused = [Client.send_play_pause] /\
   state (obj paused) = STATE_PLAYING /\
   _state (obj paused) = Some STATE_OFF /\
   _skip_update (obj paused) = true).
Proof.
  cbv. repeat split.
Qed.

(** C2: [_try_command] turns the exception of a remote read into the result
    [False], so the handler of the outer [try] in [async_update] never runs.
    A poll cycle whose [get_play_status] raises ends with the entity
    available, the play state overwritten with [STATE_PAUSED] and the volume
    and mute flag taken from the second read; one whose [get_volume_level]
    raises ends with the entity available, the volume level [False] and the
    mute flag cleared. *)
Theorem poll_with_raising_read_updates :
  let first_raises :=
    on_script playing_player
      [Client.Raises (DeviceError "timed out"); Client.Returns (VInt 0)] in
  let second_raises :=
    on_script playing_player
      [Client.Returns (VInt 1); Client.Raises (DeviceError "timed out")] in
  let after1 := async_update script script_call first_raises in
  let after2 := async_update script script_call second_raises in
  (_skip_update playing_player = false /\
   state playing_player = STATE_PLAYING /\
   _volume_level playing_player = VInt 7 /\
   is_volume_muted playing_player = true) /\
  (fst after1 = inl tt /\
   available (obj (snd after1)) = true /\
   state (obj (snd after1)) = STATE_PAUSED /\
   _volume_level (obj (snd after1)) = VInt 0 /\
   is_volume_muted (obj (snd after1)) = false) /\
  (fst after2 = inl tt /\
   available (obj (snd after2)) = true /\
   state (obj (snd after2)) = STATE_PLAYING /\
   _volume_level (obj (snd after2)) = VBool false /\
   is_volume_muted (obj (snd after2)) = false).
Proof.
  cbv. repeat split.
Qed.

(** C3: [set_volume_level] stores [int(volume / 0.0625)] without the clamp
    that [volume_up] applies; for [volume = 1.0] the stored level is 16,
    above 15.  The reported [volume_level] is then [1.0]. *)
Theorem set_volume_level_full_stores_16 :
  let w := on_script fresh_player [Client.Returns (VBool true)] in
  let w' := snd (set_volume_level script script_call 1 w) in
  calls w' = [Client.set_volume_level (VInt 16)] /\
  _volume_level (obj w') = VInt 16 /\
  (15 < 16)%Z /\
  exists q : Q, volume_level (obj w') = inl (VFloat q) /\ q == 1.
Proof.
  cbv. repeat split.
  eexists. split; [reflexivity | reflexivity].
Qed.

(** C6, as stated, fails: [send_play_pause] returns [False] without raising,
    and the entity, available before [async_turn_on], is still available
    after it. *)
Lemma falsy_result_keeps_available :
  let w := on_script paused_player [Client.Returns (VBool false)] in
  let w' := snd (async_turn_on script script_call w) in
  script_call Client.send_play_pause (dev w) =
    (Client.Returns (VBool false), []) /\
  truthy (VBool false) = false /\
  calls w' = [Client.send_play_pause] /\
  available (obj w) = true /\
  available (obj w') <> false.
Proof.
  cbv. repeat split. discriminate.
Qed.

(** * The theorems at concrete inputs *)

(** [async_turn_on] on a paused entity whose device accepts the command and
    then answers two reads. *)
Lemma skip_flag_consumed_once_witness :
  let w :=
    on_script paused_player
      [Client.Returns (VBool true); Client.Returns (VInt 1);
       Client.Returns (VInt 7)] in
  let w1 := snd (handler script script_call TurnOn w) in
  let w2 := snd (async_update script script_call w1) in
  let w3 := snd (async_update script script_call w2) in
  _skip_update (obj w1) = true /\
  calls w2 = calls w1 /\
  calls w3 = calls w2 ++ [Client.get_play_status; Client.get_volume_level].
Proof.
  intros w w1 w2 w3.
  destruct (skip_flag_consumed_once script_call TurnOn w
              Client.send_play_pause (VBool true)
              [Client.Returns (VInt 1); Client.Returns (VInt 7)]
              eq_refl eq_refl eq_refl) as (H1 & H2 & H3 & _).
  split; [exact H1 | split; [| exact H3]].
  unfold w2, w1. rewrite H2. reflexivity.
Defined.

(** [volume_up] on an entity whose device drops the connection. *)
Lemma raising_call_keeps_cache_witness :
  let w := on_script paused_player [Client.Raises (DeviceError "timed out")] in
  let w' := snd (handler script script_call VolumeUp w) in
  calls w' = [Client.set_volume_level (VInt 8)] /\
  _volume_level (obj w') = VInt 7 /\
  available (obj w') = false.
Proof.
  intros w w'.
  destruct (raising_call_keeps_cache script_call VolumeUp w
              (Client.set_volume_level (VInt 8)) (DeviceError "timed out") []
              eq_refl eq_refl) as (_ & _ & _ & H3 & _ & H5).
  split; [reflexivity | split; [exact H3 | exact H5]].
Defined.

(** [mute_volume false] on a muted entity whose device refuses, then one
    whose device raises. *)
Lemma falsy_call_changes_nothing_witness :
  let refused := on_script paused_player [Client.Returns (VInt 0)] in
  let failed := on_script paused_player [Client.Raises TypeError] in
  handler script script_call (MuteVolume false) refused =
    (inl tt, answered refused Client.set_volume_toggle_mute []) /\
  fst (handler script script_call (MuteVolume false) failed) = inl tt.
Proof.
  intros refused failed. split.
  - destruct (falsy_call_changes_nothing script_call (MuteVolume false)
                refused Client.set_volume_toggle_mute eq_refl) as [H _].
    exact (H (VInt 0) [] eq_refl eq_refl).
  - destruct (falsy_call_changes_nothing script_call (MuteVolume false)
                failed Client.set_volume_toggle_mute eq_refl) as [_ H].
    exact (H TypeError [] eq_refl).
Defined.

(** The three redundant commands, each on an entity whose device would
    answer. *)
Lemma redundant_command_is_noop_witness :
  let on := on_script playing_player [Client.Returns (VBool true)] in
  let off := on_script paused_player [Client.Returns (VBool true)] in
  (async_turn_on script script_call on = (inl tt, on) /\
   media_play script script_call on = (inl tt, on)) /\
  (async_turn_off script script_call off = (inl tt, off) /\
   media_pause script script_call off = (inl tt, off)) /\
  mute_volume script script_call true off = (inl tt, off).
Proof.
  intros on off.
  destruct (redundant_command_is_noop script_call on) as (H1 & _ & _).
  destruct (redundant_command_is_noop script_call off) as (_ & H2 & H3).
  split; [apply H1; reflexivity | split].
  - apply H2. cbn. discriminate.
  - apply H3. reflexivity.
Defined.

(** A poll cycle of a fresh entity whose device is playing at level 9, then
    one whose device is playing at level 0. *)
Lemma successful_poll_refreshes_witness :
  let loud :=
    on_script fresh_player [Client.Returns (VInt 1); Client.Returns (VInt 9)] in
  let silent :=
    on_script fresh_player [Client.Returns (VInt 1); Client.Returns (VInt 0)] in
  (available (obj (snd (async_update script script_call loud))) = true /\
   _volume_level (obj (snd (async_update script script_call loud))) = VInt 9 /\
   is_volume_muted (obj (snd (async_update script script_call loud))) = true) /\
  is_volume_muted (obj (snd (async_update script script_call silent))) = false.
Proof.
  intros loud silent. split.
  - destruct (successful_poll_refreshes script_call loud (VInt 1) (VInt 9)
                [Client.Returns (VInt 9)] [] eq_refl eq_refl eq_refl)
      as (_ & H1 & H2 & H3 & _).
    split; [exact H1 | split; [exact H2 | exact H3]].
  - destruct (successful_poll_refreshes script_call silent (VInt 1) (VInt 0)
                [Client.Returns (VInt 0)] [] eq_refl eq_refl eq_refl)
      as (_ & _ & _ & _ & H4).
    exact (H4 0%Z eq_refl).
Defined.

(** A setup whose device refuses the connection, and one whose handshake
    goes through. *)
Lemma setup_handshake_witness :
  let unreachable : world script (list player) :=
    mkWorld [] [Client.Returns VNone; Client.Raises (DeviceError "refused")] [] in
  let reachable : world script (list player) :=
    mkWorld []
      [Client.Returns VNone; Client.Returns VNone;
       Client.Returns (VStr "FH-A8"); Client.Returns VNone] [] in
  (fst (async_setup_platform script script_call home_config unreachable) =
     inr PlatformNotReady /\
   obj (snd (async_setup_platform script script_call home_config unreachable))
     = []) /\
  (fst (async_setup_platform script script_call home_config reachable) =
     inl tt /\
   obj (snd (async_setup_platform script script_call home_config reachable))
     = [fresh_player]).
Proof.
  intros unreachable reachable. split.
  - destruct (setup_handshake script_call home_config unreachable)
      as (_ & H & _).
    exact (H VNone [Client.Raises (DeviceError "refused")]
             (DeviceError "refused") [] eq_refl eq_refl).
  - destruct (setup_handshake script_call home_config reachable)
      as (_ & _ & _ & _ & H).
    exact (H VNone
             [Client.Returns VNone; Client.Returns (VStr "FH-A8");
              Client.Returns VNone]
             VNone [Client.Returns (VStr "FH-A8"); Client.Returns VNone]
             (VStr "FH-A8") [Client.Returns VNone] VNone []
             eq_refl eq_refl eq_refl eq_refl).
Defined.

(** * Further properties of the adapter *)

Section AdapterBehaviour.

Context {D : Type}.
Variable dev_call : Client.call -> D -> Client.outcome * D.

Local Notation run := (handler D dev_call).
Local Notation poll := (async_update D dev_call).

(** Runs a handler symbolically: one goal for each way through it. *)
Ltac enter_handler :=
  unfold handler, async_turn_on, async_turn_off, mute_volume, volume_up,
    volume_down, set_volume_level, media_play, media_pause, async_update;
  unfold bind, eval, read, ret, raise, assign, try_except;
  cbn -[_try_command truthy py_eq_1 Qle_bool inject_Z].

Ltac split_guard :=
  match goal with
  | |- context [if ?b then _ else _] =>
      lazymatch b with
      | truthy _ => fail
      | py_eq_1 _ => fail
      | _ => destruct b eqn:?
      end
  end.

Ltac ask_device :=
  rewrite (try_command_eq dev_call); cbn [dev obj calls];
  match goal with
  | |- context [dev_call ?k ?d1] =>
      let v := fresh "v" in
      let e := fresh "e" in
      let d := fresh "d" in
      let E := fresh "E" in
      destruct (dev_call k d1) as [[v | e] d] eqn:E;
      unfold answered; cbn [dev obj calls fst snd];
      [destruct (truthy v) eqn:? |]
  end.

Ltac handler_paths c w :=
  let p := fresh "p" in
  let d0 := fresh "d" in
  let l := fresh "l" in
  let lv := fresh "lv" in
  destruct w as [p d0 l];
  destruct p as [? ? ? ? ? ? lv ? ? ? ? ? ?];
  destruct c; enter_handler;
  try (destruct lv; enter_handler);
  repeat split_guard;
  try ask_device;
  cbn [dev obj calls fst snd] in *.

(** X1: [_try_command] returns normally whatever the client method does.
    It issues exactly one remote call; its result is the value returned, or
    [False] when the method raised; and it touches the entity only in the
    second case, clearing [_available]. *)
Theorem try_command_never_raises (mask_error : string) (func : Client.call)
    (w : world D player) :
  let r := _try_command D dev_call mask_error func w in
  let o := fst (dev_call func (dev w)) in
  fst r = inl (received o) /\
  calls (snd r) = calls w ++ [func] /\
  dev (snd r) = snd (dev_call func (dev w)) /\
  obj (snd r) =
    match o with
    | Client.Returns _ => obj w
    | Client.Raises _ => with_available false (obj w)
    end.
Proof.
  cbv zeta. rewrite (try_command_eq dev_call).
  destruct (dev_call func (dev w)) as [[v | e] d]; cbn; auto.
Qed.

(** X2: a command handler issues at most one remote call, and that call is
    the client method of its command: [send_play_pause] for turning on or
    off, playing and pausing, [set_volume_toggle_mute] for muting,
    [set_volume_level] for the three volume commands.  When it issues none,
    the entity and the device are as before. *)
Theorem handler_issues_its_own_call (c : command) (w : world D player) :
  let w' := snd (run c w) in
  (calls w' = calls w /\ dev w' = dev w /\ obj w' = obj w) \/
  (exists k : Client.call,
     calls w' = calls w ++ [k] /\
     dev w' = snd (dev_call k (dev w)) /\
     match c with
     | TurnOn | TurnOff | MediaPlay | MediaPause =>
         k = Client.send_play_pause
     | MuteVolume _ => k = Client.set_volume_toggle_mute
     | VolumeUp | VolumeDown =>
         exists vol, k = Client.set_volume_level vol
     | SetVolumeLevel volume =>
         k = Client.set_volume_level (VInt (py_int (volume / (1 # 16))))
     end).
Proof.
  cbv zeta.
  handler_paths c w; auto.
  all: right; eexists; rewrite ?E; cbn; repeat split; eauto.
Qed.


(** What a poll cycle issues and leaves, whatever the skip flag and the
    answers of the device. *)
Lemma poll_paths (w : world D player) :
  (_skip_update (obj w) = true /\
   poll w =
     (inl tt, mkWorld (with_skip_update false (obj w)) (dev w) (calls w))) \/
  (_skip_update (obj w) = false /\
   exists o1 d1 o2 d2,
     dev_call Client.get_play_status (dev w) = (o1, d1) /\
     dev_call Client.get_volume_level d1 = (o2, d2) /\
     fst (poll w) = inl tt /\
     dev (snd (poll w)) = d2 /\
     calls (snd (poll w)) =
       calls w ++ [Client.get_play_status; Client.get_volume_level] /\
     _player_state (obj (snd (poll w))) =
       (if py_eq_1 (received o1) then STATE_PLAYING else STATE_PAUSED) /\
     _volume_level (obj (snd (poll w))) = received o2 /\
     _volume_muted (obj (snd (poll w))) = truthy (received o2) /\
     _available (obj (snd (poll w))) = true /\
     _skip_update (obj (snd (poll w))) = false).
Proof.
  destruct (_skip_update (obj w)) eqn:Hskip.
  - left. split; [reflexivity |]. now apply poll_skipped.
  - right. split; [reflexivity |].
    destruct (dev_call Client.get_play_status (dev w)) as [o1 d1] eqn:E1.
    destruct (dev_call Client.get_volume_level d1) as [o2 d2] eqn:E2.
    exists o1, d1, o2, d2.
    destruct (poll_queried dev_call w o1 o2 d1 d2 Hskip E1 E2)
      as (H1 & H2 & H3 & H4 & H5 & H6 & H7 & H8 & _).
    repeat split; assumption.
Qed.

(** X4: [async_update] returns normally in every state and for every
    device: an exception of a remote read stops inside [_try_command], so
    the handler of the outer [try], which would raise [NameError], is never
    entered. *)
Theorem poll_never_raises (w : world D player) :
  fst (poll w) = inl tt.
Proof.
  destruct (poll_paths w) as [[_ H] | [_ H]].
  - now rewrite H.
  - now destruct H as (o1 & d1 & o2 & d2 & _ & _ & H & _).
Qed.

(** X5: a poll cycle that finds the skip flag clear issues exactly two
    remote calls, [get_play_status] and then [get_volume_level], also when
    the first one raises, and ends with the entity available and the flag
    clear. *)
Theorem poll_issues_both_reads (w : world D player) :
  _skip_update (obj w) = false ->
  calls (snd (poll w)) =
    calls w ++ [Client.get_play_status; Client.get_volume_level] /\
  dev (snd (poll w)) =
    snd (dev_call Client.get_volume_level
           (snd (dev_call Client.get_play_status (dev w)))) /\
  available (obj (snd (poll w))) = true /\
  _skip_update (obj (snd (poll w))) = false.
Proof.
  intros Hskip.
  destruct (poll_paths w) as [[H _] | [_ H]]; [congruence |].
  destruct H as (o1 & d1 & o2 & d2 & E1 & E2 & _ & H1 & H2 & _ & _ & _ & H3 & H4).
  rewrite E1. cbn [snd]. rewrite E2. cbn [snd].
  unfold available. auto.
Qed.

(** X6: a poll cycle that finds the skip flag clear sets the play state to
    [STATE_PLAYING] when [get_play_status] returned a value equal to 1 and
    to [STATE_PAUSED] in every other case, a raised exception included; it
    never sets [STATE_OFF]. *)
Theorem poll_play_state (w : world D player) :
  _skip_update (obj w) = false ->
  let o := fst (dev_call Client.get_play_status (dev w)) in
  state (obj (snd (poll w))) =
    (if py_eq_1 (received o) then STATE_PLAYING else STATE_PAUSED) /\
  state (obj (snd (poll w))) <> STATE_OFF /\
  (forall e, o = Client.Raises e -> state (obj (snd (poll w))) = STATE_PAUSED).
Proof.
  intros Hskip o.
  destruct (poll_paths w) as [[H _] | [_ H]]; [congruence |].
  destruct H as (o1 & d1 & o2 & d2 & E1 & _ & _ & _ & _ & H & _).
  subst o. rewrite E1. cbn [fst]. unfold state. rewrite H.
  repeat split.
  - destruct (py_eq_1 (received o1)); discriminate.
  - intros e ->. reflexivity.
Qed.

(** The fields that no handler and no poll cycle assigns. *)
Lemma occur_frame (e : event) (w : world D player) :
  let p := obj w in
  let p' := obj (occur dev_call e w) in
  _host p' = _host p /\ _port p' = _port p /\ _model p' = _model p /\
  _name p' = _name p /\ _shuffle p' = _shuffle p /\
  _sound_mode p' = _sound_mode p /\ _cur_track p' = _cur_track p.
Proof.
  cbv zeta. destruct e as [c |]; unfold occur.
  - handler_paths c w; repeat split.
  - destruct w as [p d0 l]. destruct p as [? ? ? ? ? ? ? ? ? ? ? skip ?].
    enter_handler. destruct skip; cbn; [repeat split |].
    rewrite (try_command_eq dev_call); cbn [dev obj calls].
    destruct (dev_call Client.get_play_status d0) as [[v1 | e1] d1];
      unfold answered; cbn [dev obj calls].
    all: destruct (py_eq_1 _); cbn -[_try_command truthy].
    all: rewrite (try_command_eq dev_call); cbn [dev obj calls].
    all: destruct (dev_call Client.get_volume_level d1) as [[v2 | e2] d2];
      unfold answered; cbn [dev obj calls].
    all: try (destruct (truthy v2)); cbn; repeat split.
Qed.

(** X7: whatever commands and poll cycles an entity goes through, and
    whatever the device answers, its name, host, port and model stay what
    the constructor was given, shuffle stays what it was and the sound mode
    and the track stay what they were: no handler assigns them. *)
Theorem identity_never_changes (es : list event) (w : world D player) :
  let p := obj w in
  let p' := obj (occur_all dev_call es w) in
  name p' = name p /\ _host p' = _host p /\ _port p' = _port p /\
  _model p' = _model p /\ shuffle p' = shuffle p /\
  sound_mode p' = sound_mode p /\ _cur_track p' = _cur_track p.
Proof.
  cbv zeta. unfold name, shuffle, sound_mode.
  revert w. induction es as [| e es IH]; intros w; cbn [occur_all].
  - repeat split.
  - destruct (IH (occur dev_call e w)) as (H1 & H2 & H3 & H4 & H5 & H6 & H7).
    destruct (occur_frame e w) as (F1 & F2 & F3 & F4 & F5 & F6 & F7).
    repeat split; congruence.
Qed.

(** X8: a command never makes an unavailable entity available: after a
    handler the entity is available only if it was before.  Availability
    comes back with a poll cycle only. *)
Theorem command_never_restores_availability (c : command)
    (w : world D player) :
  available (obj (snd (run c w))) = true ->
  available (obj w) = true.
Proof.
  unfold available.
  destruct (handler_ending dev_call c w) as [e | | k o d p Hans Hp];
    cbn [snd obj]; auto.
  destruct o as [v | e].
  - destruct (truthy v).
    + destruct Hp as (_ & _ & Hp). congruence.
    + congruence.
  - subst p. cbn. discriminate.
Qed.

(** X9: a command never clears a skip flag that is set: a poll cycle that
    was due to be skipped before the command is still skipped after it,
    also when the remote call of the command fails. *)
Theorem command_keeps_pending_skip (c : command) (w : world D player) :
  _skip_update (obj w) = true ->
  _skip_update (obj (snd (run c w))) = true /\
  calls (snd (poll (snd (run c w)))) = calls (snd (run c w)).
Proof.
  intros Hskip.
  assert (H : _skip_update (obj (snd (run c w))) = true).
  { destruct (handler_ending dev_call c w) as [e | | k o d p Hans Hp];
      cbn [snd obj]; auto.
    destruct o as [v | e].
    - destruct (truthy v); [tauto | congruence].
    - subst p. exact Hskip. }
  split; [exact H |].
  now rewrite (poll_skipped dev_call _ H).
Qed.

(** X10: the entity that the constructor builds is unavailable, reads
    [STATE_PLAYING], is not muted and, its stored level being [1.0], reports
    the volume [0.0625]; its skip flag is clear, so its first poll cycle
    queries the device, and it is available afterwards. *)
Theorem fresh_entity_first_poll (host : string) (port : Z) (model : pyval)
    (nm : string) (d : D) (l : list Client.call) :
  let p := FhwiseMusicPlayer host port model nm in
  let w' := snd (poll (mkWorld p d l)) in
  available p = false /\
  state p = STATE_PLAYING /\
  is_volume_muted p = false /\
  (exists q : Q, volume_level p = inl (VFloat q) /\ q == 1 # 16) /\
  calls w' = l ++ [Client.get_play_status; Client.get_volume_level] /\
  available (obj w') = true.
Proof.
  intros p w'.
  assert (Hskip : _skip_update (obj (mkWorld p d l)) = false) by reflexivity.
  destruct (poll_paths (mkWorld p d l)) as [[H _] | [_ H]]; [congruence |].
  destruct H as (o1 & d1 & o2 & d2 & _ & _ & _ & _ & H1 & _ & _ & _ & H2 & _).
  repeat split; auto.
  eexists. split; reflexivity.
Qed.

(** X11: an entity that a failed command left unavailable recovers at the
    next poll cycle: when the remote call of a handler raises and no skip
    is pending, the entity is unavailable after the handler, and the
    following [async_update] queries the device and makes it available. *)
Theorem failed_command_recovers_at_poll (c : command) (w : world D player)
    (k : Client.call) (e : pyexn) (d : D) :
  calls (snd (run c w)) = calls w ++ [k] ->
  dev_call k (dev w) = (Client.Raises e, d) ->
  _skip_update (obj w) = false ->
  let w1 := snd (run c w) in
  available (obj w1) = false /\
  calls (snd (poll w1)) =
    calls w1 ++ [Client.get_play_status; Client.get_volume_level] /\
  available (obj (snd (poll w1))) = true.
Proof.
  intros Hcalls Hans Hskip w1.
  destruct (issued_call_answer dev_call c w k _ d Hcalls Hans) as (_ & _ & Hobj).
  assert (Hskip1 : _skip_update (obj w1) = false).
  { unfold w1. rewrite Hobj. exact Hskip. }
  destruct (poll_paths w1) as [[H _] | [_ H]]; [congruence |].
  destruct H as (o1 & d1 & o2 & d2 & _ & _ & _ & _ & H1 & _ & _ & _ & H2 & _).
  repeat split; auto.
  unfold w1. now rewrite Hobj.
Qed.

(** [mute_volume] with the value that the flag already has. *)
Lemma mute_volume_same (mute : bool) (w : world D player) :
  _volume_muted (obj w) = mute ->
  mute_volume D dev_call mute w = (inl tt, w).
Proof.
  intros H. enter_handler. rewrite H. now rewrite Bool.eqb_reflx.
Qed.

(** X12: [mute_volume] is idempotent on a device that accepts the toggle:
    after [mute_volume mute] the mute flag is [mute], and a second
    [mute_volume mute] issues no remote call and changes nothing. *)
Theorem mute_volume_twice (mute : bool) (w : world D player) (v : pyval)
    (d : D) :
  dev_call Client.set_volume_toggle_mute (dev w) = (Client.Returns v, d) ->
  truthy v = true ->
  let w1 := snd (mute_volume D dev_call mute w) in
  is_volume_muted (obj w1) = mute /\
  mute_volume D dev_call mute w1 = (inl tt, w1).
Proof.
  intros Hans Hv w1.
  assert (H : _volume_muted (obj w1) = mute).
  { subst w1. destruct w as [p d0 l]. cbn [dev] in Hans.
    enter_handler. destruct (Bool.eqb (_volume_muted p) mute) eqn:B; cbn.
    - now apply Bool.eqb_prop.
    - rewrite (try_command_eq dev_call). cbn [dev obj calls]. rewrite Hans.
      unfold answered. cbn [obj]. now rewrite Hv. }
  split; [exact H |].
  now apply mute_volume_same.
Qed.

(** [async_turn_on] on an entity that does not read [STATE_PLAYING], and
    [async_turn_off] on one that does: one [send_play_pause], and the entity
    reads the same play state afterwards. *)
Lemma play_state_command_sends (w : world D player) :
  (_player_state (obj w) <> STATE_PLAYING ->
   calls (snd (async_turn_on D dev_call w)) =
     calls w ++ [Client.send_play_pause] /\
   _player_state (obj (snd (async_turn_on D dev_call w))) =
     _player_state (obj w)) /\
  (_player_state (obj w) = STATE_PLAYING ->
   calls (snd (async_turn_off D dev_call w)) =
     calls w ++ [Client.send_play_pause] /\
   _player_state (obj (snd (async_turn_off D dev_call w))) =
     _player_state (obj w)).
Proof.
  destruct w as [p d0 l].
  destruct p as [? ? ? ? ps ? ? ? ? ? ? ? ?].
  split; intros H; cbn in H; enter_handler.
  - destruct ps; try (now elim H); cbn -[_try_command truthy].
    all: ask_device; cbn; auto.
  - subst ps. cbn -[_try_command truthy].
    ask_device; cbn; auto.
Qed.

(** X13: the play-state commands are not idempotent.  The handlers leave
    [_player_state] alone, so a second [async_turn_on] on an entity that
    does not read [STATE_PLAYING] sends [send_play_pause] to the device a
    second time, whatever the device answered to the first; and so does a
    second [async_turn_off] on an entity that reads [STATE_PLAYING]. *)
Theorem play_state_command_twice_sends_twice (w : world D player) :
  (state (obj w) <> STATE_PLAYING ->
   calls (snd (async_turn_on D dev_call (snd (async_turn_on D dev_call w)))) =
     calls w ++ [Client.send_play_pause; Client.send_play_pause]) /\
  (state (obj w) = STATE_PLAYING ->
   calls (snd (async_turn_off D dev_call (snd (async_turn_off D dev_call w)))) =
     calls w ++ [Client.send_play_pause; Client.send_play_pause]).
Proof.
  unfold state. split; intros H.
  - destruct (play_state_command_sends w) as [H1 _].
    destruct (H1 H) as [Hc Hs].
    destruct (play_state_command_sends (snd (async_turn_on D dev_call w)))
      as [H2 _].
    rewrite <- Hs in H. destruct (H2 H) as [Hc2 _].
    rewrite Hc2, Hc, <- app_assoc. reflexivity.
  - destruct (play_state_command_sends w) as [_ H1].
    destruct (H1 H) as [Hc Hs].
    destruct (play_state_command_sends (snd (async_turn_off D dev_call w)))
      as [_ H2].
    rewrite <- Hs in H. destruct (H2 H) as [Hc2 _].
    rewrite Hc2, Hc, <- app_assoc. reflexivity.
Qed.

(** X14: a poll cycle sets the mute flag to the truth value of the level it
    read, so after a poll cycle that read a nonzero level the command
    [mute_volume true] issues no remote call, and after one that read zero,
    or whose read raised, [mute_volume false] issues none. *)
Theorem mute_after_poll_is_redundant (w : world D player) :
  _skip_update (obj w) = false ->
  let o :=
    fst (dev_call Client.get_volume_level
           (snd (dev_call Client.get_play_status (dev w)))) in
  let w1 := snd (poll w) in
  mute_volume D dev_call (truthy (received o)) w1 = (inl tt, w1) /\
  (forall z : Z, o = Client.Returns (VInt z) -> z <> 0%Z ->
     mute_volume D dev_call true w1 = (inl tt, w1)) /\
  (forall e : pyexn, o = Client.Raises e ->
     mute_volume D dev_call false w1 = (inl tt, w1)).
Proof.
  intros Hskip o w1.
  destruct (poll_paths w) as [[H _] | [_ H]]; [congruence |].
  destruct H as (o1 & d1 & o2 & d2 & E1 & E2 & _ & _ & _ & _ & _ & H & _).
  assert (Ho : o = o2) by (subst o; rewrite E1; cbn [snd]; now rewrite E2).
  rewrite Ho. repeat split.
  - now apply mute_volume_same.
  - intros z -> Hz. apply mute_volume_same. fold w1 in H. rewrite H. cbn.
    now apply Z.eqb_neq in Hz; rewrite Hz.
  - intros e ->. apply mute_volume_same. exact H.
Qed.

(** X15: a poll cycle stores what [get_volume_level] returned without
    looking at it.  When that is not a number ([None], a string), reading
    the [volume_level] property raises [TypeError], and so do [volume_up]
    and [volume_down], before any remote call. *)
Theorem poll_stores_level_unchecked (w : world D player) (v : pyval)
    (d : D) :
  _skip_update (obj w) = false ->
  dev_call Client.get_volume_level
    (snd (dev_call Client.get_play_status (dev w))) = (Client.Returns v, d) ->
  as_number v = None ->
  let w1 := snd (poll w) in
  _volume_level (obj w1) = v /\
  volume_level (obj w1) = inr TypeError /\
  volume_up D dev_call w1 = (inr TypeError, w1) /\
  volume_down D dev_call w1 = (inr TypeError, w1).
Proof.
  intros Hskip Hans Hv w1.
  destruct (poll_paths w) as [[H _] | [_ H]]; [congruence |].
  destruct H as (o1 & d1 & o2 & d2 & E1 & E2 & _ & _ & _ & _ & H & _).
  rewrite E1 in Hans. cbn [snd] in Hans. rewrite E2 in Hans.
  inversion Hans; subst o2 d2. cbn [received] in H. fold w1 in H.
  repeat split.
  - exact H.
  - unfold volume_level, py_mul_0_0625. now rewrite H, Hv.
  - enter_handler. rewrite H.
    destruct v; try discriminate; reflexivity.
  - enter_handler. rewrite H.
    destruct v; try discriminate; reflexivity.
Qed.

(** ** Volume arithmetic *)

Lemma Qle_bool_inject_Z (a b : Z) :
  Qle_bool (inject_Z a) (inject_Z b) = (a <=? b)%Z.
Proof.
  unfold Qle_bool. cbn. now rewrite !Z.mul_1_r.
Qed.

(** What the volume handlers do once the target level is known. *)
Lemma send_level (vol : pyval) (w : world D player) (v : pyval) (d : D) :
  dev_call (Client.set_volume_level vol) (dev w) = (Client.Returns v, d) ->
  truthy v = true ->
  bind D (_try_command D dev_call "Set volume level failed."
            (Client.set_volume_level vol))
    (fun result =>
       if truthy result then
         bind D (assign D (with_volume_level vol))
           (fun _ => assign D (with_skip_update true))
       else ret D tt) w =
  (inl tt,
   mkWorld (with_skip_update true (with_volume_level vol (obj w))) d
     (calls w ++ [Client.set_volume_level vol])).
Proof.
  intros Hans Hv. unfold bind at 1.
  rewrite (try_command_eq dev_call), Hans. unfold answered.
  rewrite Hv. reflexivity.
Qed.

(** [volume_up] and [volume_down] at an integer level, on a device that
    accepts the call. *)
Lemma volume_up_sends (w : world D player) (z : Z) (v : pyval) (d : D) :
  _volume_level (obj w) = VInt z ->
  dev_call (Client.set_volume_level (VInt (Z.min 15 (z + 1)))) (dev w) =
    (Client.Returns v, d) ->
  truthy v = true ->
  volume_up D dev_call w =
  (inl tt,
   mkWorld
     (with_skip_update true
        (with_volume_level (VInt (Z.min 15 (z + 1))) (obj w)))
     d (calls w ++ [Client.set_volume_level (VInt (Z.min 15 (z + 1)))])).
Proof.
  intros Hlv Hans Hv.
  unfold volume_up. unfold bind at 1. unfold read. cbn iota beta.
  rewrite Hlv. unfold bind at 1. unfold eval at 1. cbn iota beta.
  unfold py_add_int. unfold bind at 1. unfold eval at 1.
  unfold py_min_int, as_number. rewrite Qle_bool_inject_Z. cbn iota beta.
  destruct (15 <=? z + 1)%Z eqn:B; cbn [negb].
  - apply Z.leb_le in B. rewrite Z.min_l in * by lia.
    now apply (send_level _ _ v d).
  - apply Z.leb_gt in B. rewrite Z.min_r in * by lia.
    now apply (send_level _ _ v d).
Qed.

Lemma volume_down_sends (w : world D player) (z : Z) (v : pyval) (d : D) :
  _volume_level (obj w) = VInt z ->
  dev_call (Client.set_volume_level (VInt (Z.max 0 (z - 1)))) (dev w) =
    (Client.Returns v, d) ->
  truthy v = true ->
  volume_down D dev_call w =
  (inl tt,
   mkWorld
     (with_skip_update true
        (with_volume_level (VInt (Z.max 0 (z - 1))) (obj w)))
     d (calls w ++ [Client.set_volume_level (VInt (Z.max 0 (z - 1)))])).
Proof.
  intros Hlv Hans Hv.
  unfold volume_down. unfold bind at 1. unfold read. cbn iota beta.
  rewrite Hlv. unfold bind at 1. unfold eval at 1. cbn iota beta.
  unfold py_add_int. unfold bind at 1. unfold eval at 1.
  unfold py_max_int, as_number. rewrite Qle_bool_inject_Z. cbn iota beta.
  replace (z + -1)%Z with (z - 1)%Z by lia.
  destruct (z - 1 <=? 0)%Z eqn:B; cbn [negb].
  - apply Z.leb_le in B. rewrite Z.max_l in * by lia.
    now apply (send_level _ _ v d).
  - apply Z.leb_gt in B. rewrite Z.max_r in * by lia.
    now apply (send_level _ _ v d).
Qed.

(** X16: on a device that accepts both calls, [volume_up] followed by
    [volume_down] brings an integer level between 0 and 14 back to itself:
    the device is sent the level plus one and then the level, and the entity
    ends as it started but for the skip flag, which is set. *)
Theorem volume_up_down_round_trip (w : world D player) (z : Z)
    (v1 v2 : pyval) (d1 d2 : D) :
  _volume_level (obj w) = VInt z ->
  (0 <= z <= 14)%Z ->
  dev_call (Client.set_volume_level (VInt (z + 1))) (dev w) =
    (Client.Returns v1, d1) ->
  truthy v1 = true ->
  dev_call (Client.set_volume_level (VInt z)) d1 = (Client.Returns v2, d2) ->
  truthy v2 = true ->
  let w2 := snd (volume_down D dev_call (snd (volume_up D dev_call w))) in
  calls w2 =
    calls w ++ [Client.set_volume_level (VInt (z + 1));
                Client.set_volume_level (VInt z)] /\
  dev w2 = d2 /\
  obj w2 = with_skip_update true (obj w).
Proof.
  intros Hlv Hz H1 Hv1 H2 Hv2.
  assert (Eup : Z.min 15 (z + 1) = (z + 1)%Z) by lia.
  assert (Edown : Z.max 0 (z + 1 - 1) = z) by lia.
  cbv zeta.
  rewrite (volume_up_sends w z v1 d1 Hlv); rewrite ?Eup; auto.
  cbn [snd].
  rewrite (volume_down_sends _ (z + 1) v2 d2); rewrite ?Edown; auto.
  cbn [snd calls dev obj]. rewrite <- app_assoc. repeat split.
  destruct w as [p d0 l]. cbn [obj] in *.
  destruct p. cbn in Hlv. subst. reflexivity.
Qed.

(** The call log and the stored level after the tail of a volume handler,
    whatever the device answers. *)
Lemma send_level_any (vol : pyval) (w : world D player) :
  let w' :=
    snd (bind D (_try_command D dev_call "Set volume level failed."
                   (Client.set_volume_level vol))
           (fun result =>
              if truthy result then
                bind D (assign D (with_volume_level vol))
                  (fun _ => assign D (with_skip_update true))
              else ret D tt) w) in
  calls w' = calls w ++ [Client.set_volume_level vol] /\
  (_volume_level (obj w') = vol \/
   _volume_level (obj w') = _volume_level (obj w)).
Proof.
  cbv zeta. unfold bind, assign, ret. rewrite (try_command_eq dev_call).
  destruct (dev_call _ (dev w)) as [[v | e] d]; unfold answered.
  - destruct (truthy v); cbn; auto.
  - cbn. auto.
Qed.



(** The tail that the three volume handlers share: send [vol], and store it
    when the device accepts. *)
Local Notation send vol :=
  (bind D (_try_command D dev_call "Set volume level failed."
             (Client.set_volume_level vol))
     (fun result =>
        if truthy result then
          bind D (assign D (with_volume_level vol))
            (fun _ => assign D (with_skip_update true))
        else ret D tt)).

(** The level that [volume_up] and [volume_down] send lies between 0 and
    15, if only the stored level is at least -1, resp. any number. *)
Lemma volume_up_target (w : world D player) (q : Q) :
  as_number (_volume_level (obj w)) = Some q ->
  (-1 <= q)%Q ->
  exists vol q',
    as_number vol = Some q' /\ (0 <= q' <= 15)%Q /\
    volume_up D dev_call w = send vol w.
Proof.
  intros Hq Hb.
  destruct (py_add_int_number _ 1 q Hq) as (v' & q' & Hadd & Hq' & E).
  unfold volume_up. unfold bind at 1. unfold read. cbn iota beta.
  rewrite Hadd. unfold bind at 1. unfold eval at 1. cbn iota beta.
  unfold py_min_int. rewrite Hq'.
  unfold bind at 1. unfold eval at 1. cbn iota beta.
  destruct (Qle_bool (inject_Z 15) q') eqn:B; cbn [negb].
  - exists (VInt 15), (inject_Z 15). repeat split; discriminate.
  - exists v', q'. repeat split; auto.
    + rewrite E. apply Qle_trans with (-1 + inject_Z 1)%Q; [discriminate |].
      now apply Qplus_le_l.
    + assert (N : ~ (inject_Z 15 <= q')%Q)
        by (rewrite <- Qle_bool_iff; congruence).
      apply Qnot_le_lt in N. now apply Qlt_le_weak.
Qed.

Lemma volume_down_target (w : world D player) (q : Q) :
  as_number (_volume_level (obj w)) = Some q ->
  (q <= 16)%Q ->
  exists vol q',
    as_number vol = Some q' /\ (0 <= q' <= 15)%Q /\
    volume_down D dev_call w = send vol w.
Proof.
  intros Hq Hb.
  destruct (py_add_int_number _ (-1) q Hq) as (v' & q' & Hadd & Hq' & E).
  unfold volume_down. unfold bind at 1. unfold read. cbn iota beta.
  rewrite Hadd. unfold bind at 1. unfold eval at 1. cbn iota beta.
  unfold py_max_int. rewrite Hq'.
  unfold bind at 1. unfold eval at 1. cbn iota beta.
  destruct (Qle_bool q' (inject_Z 0)) eqn:B; cbn [negb].
  - exists (VInt 0), (inject_Z 0). repeat split; discriminate.
  - exists v', q'. repeat split; auto.
    + assert (N : ~ (q' <= inject_Z 0)%Q)
        by (rewrite <- Qle_bool_iff; congruence).
      apply Qnot_le_lt in N. now apply Qlt_le_weak.
    + rewrite E. apply Qle_trans with (16 + inject_Z (-1))%Q; [| discriminate].
      now apply Qplus_le_l.
Qed.

(** The commands that are no volume command leave the stored level alone. *)
Lemma other_command_keeps_level (c : command) (w : world D player) :
  match c with
  | VolumeUp | VolumeDown | SetVolumeLevel _ => True
  | _ => _volume_level (obj (snd (run c w))) = _volume_level (obj w)
  end.
Proof.
  handler_paths c w; auto.
Qed.

Lemma command_keeps_level_within (c : command) (w : world D player) :
  unit_volume (Command c) ->
  level_within 0 16 (obj w) ->
  level_within 0 16 (obj (snd (run c w))).
Proof.
  intros Hc (q & Hq & Hlo & Hhi).
  assert (Hsend : forall vol q',
             as_number vol = Some q' -> (0 <= q' <= 16)%Q ->
             level_within 0 16 (obj (snd (send vol w)))).
  { intros vol q' Hvol Hb.
    destruct (send_level_any vol w) as [_ [H | H]]; unfold level_within.
    - rewrite H. now exists q'.
    - rewrite H. now exists q. }
  pose proof (other_command_keeps_level c w) as Hother.
  destruct c; unfold handler;
    try (unfold level_within; unfold handler in Hother; rewrite Hother;
         now exists q).
  - destruct (volume_up_target w q Hq) as (vol & q' & Hvol & [H0 H15] & ->).
    { apply Qle_trans with 0%Q; [discriminate | exact Hlo]. }
    apply (Hsend vol q' Hvol). split; [exact H0 |].
    apply Qle_trans with 15%Q; [exact H15 | discriminate].
  - destruct (volume_down_target w q Hq Hhi) as (vol & q' & Hvol & [H0 H15] & ->).
    apply (Hsend vol q' Hvol). split; [exact H0 |].
    apply Qle_trans with 15%Q; [exact H15 | discriminate].
  - cbn in Hc. unfold set_volume_level. cbv zeta.
    apply (Hsend (VInt (py_int (volume / (1 # 16))))
             (inject_Z (py_int (volume / (1 # 16)))) eq_refl).
    destruct (set_volume_level_in_range volume Hc) as [H0 H16].
    unfold Qle. cbn. lia.
Qed.

(** X19: the volume invariant that the code does keep.  Along any sequence
    of commands in which [set_volume_level] is given volumes between 0 and
    1, and whatever the device answers, a stored level between 0 and 16
    (such as the initial [1.0]) stays between 0 and 16, and the
    [volume_level] property reads a value between 0 and 1. *)
Theorem commands_keep_volume_in_range (es : list event)
    (w : world D player) :
  Forall is_command es ->
  Forall unit_volume es ->
  level_within 0 16 (obj w) ->
  level_within 0 16 (obj (occur_all dev_call es w)) /\
  exists r : Q,
    volume_level (obj (occur_all dev_call es w)) = inl (VFloat r) /\
    (0 <= r <= 1)%Q.
Proof.
  intros Hcmd Hvol Hw.
  assert (H : level_within 0 16 (obj (occur_all dev_call es w))).
  { revert w Hw. induction es as [| e es IH]; intros w Hw; cbn [occur_all].
    - exact Hw.
    - inversion Hcmd; subst. inversion Hvol; subst.
      apply IH; auto.
      destruct e as [c |]; [| contradiction].
      now apply command_keeps_level_within. }
  split; [exact H |].
  destruct H as (q & Hq & Hlo & Hhi).
  unfold volume_level, py_mul_0_0625. rewrite Hq.
  eexists. split; [reflexivity |].
  destruct q as [n m]. unfold Qle in *. cbn in *. lia.
Qed.

(** ** Setup *)


End AdapterBehaviour.

(** * The further properties at concrete inputs *)

(** A poll cycle of a playing entity whose first read times out. *)
Lemma poll_issues_both_reads_witness :
  let w :=
    on_script playing_player
      [Client.Raises (DeviceError "timed out"); Client.Returns (VInt 3)] in
  calls (snd (async_update script script_call w)) =
    [Client.get_play_status; Client.get_volume_level] /\
  available (obj (snd (async_update script script_call w))) = true.
Proof.
  intros w.
  destruct (poll_issues_both_reads script_call w eq_refl) as (H1 & _ & H2 & _).
  split; [exact H1 | exact H2].
Defined.

Lemma poll_play_state_witness :
  let w :=
    on_script playing_player
      [Client.Raises (DeviceError "timed out"); Client.Returns (VInt 3)] in
  state (obj (snd (async_update script script_call w))) = STATE_PAUSED.
Proof.
  intros w.
  destruct (poll_play_state script_call w eq_refl) as (_ & _ & H).
  exact (H (DeviceError "timed out") eq_refl).
Defined.

(** [async_turn_on] accepted by the device of an available entity. *)
Lemma command_never_restores_availability_witness :
  available (obj (on_script paused_player [Client.Returns (VBool true)])) = true.
Proof.
  exact (command_never_restores_availability script_call TurnOn
           (on_script paused_player [Client.Returns (VBool true)]) eq_refl).
Defined.

(** [volume_up] that fails while a skip is pending. *)
Lemma command_keeps_pending_skip_witness :
  let w :=
    on_script (with_skip_update true paused_player)
      [Client.Raises (DeviceError "timed out")] in
  _skip_update (obj (snd (handler script script_call VolumeUp w))) = true.
Proof.
  intros w.
  destruct (command_keeps_pending_skip script_call VolumeUp w eq_refl)
    as [H _].
  exact H.
Defined.

(** [async_turn_on] that times out, then a poll cycle that gets through. *)
Lemma failed_command_recovers_at_poll_witness :
  let w :=
    on_script paused_player
      [Client.Raises (DeviceError "timed out"); Client.Returns (VInt 1);
       Client.Returns (VInt 5)] in
  let w1 := snd (handler script script_call TurnOn w) in
  available (obj w1) = false /\
  available (obj (snd (async_update script script_call w1))) = true.
Proof.
  intros w w1.
  destruct (failed_command_recovers_at_poll script_call TurnOn w
              Client.send_play_pause (DeviceError "timed out")
              [Client.Returns (VInt 1); Client.Returns (VInt 5)]
              eq_refl eq_refl eq_refl) as (H1 & _ & H2).
  split; [exact H1 | exact H2].
Defined.

(** Unmuting a muted entity twice. *)
Lemma mute_volume_twice_witness :
  let w := on_script paused_player [Client.Returns (VBool true)] in
  let w1 := snd (mute_volume script script_call false w) in
  is_volume_muted (obj w1) = false /\
  mute_volume script script_call false w1 = (inl tt, w1).
Proof.
  intros w w1.
  exact (mute_volume_twice script_call false w (VBool true) []
           eq_refl eq_refl).
Defined.

(** Turning a paused entity on twice, and a playing entity off twice. *)
Lemma play_state_command_twice_sends_twice_witness :
  let off := on_script paused_player [Client.Returns (VBool true)] in
  let on := on_script playing_player [Client.Returns (VBool true)] in
  calls (snd (async_turn_on script script_call
                (snd (async_turn_on script script_call off)))) =
    [Client.send_play_pause; Client.send_play_pause] /\
  calls (snd (async_turn_off script script_call
                (snd (async_turn_off script script_call on)))) =
    [Client.send_play_pause; Client.send_play_pause].
Proof.
  intros off on.
  destruct (play_state_command_twice_sends_twice script_call off) as [H1 _].
  destruct (play_state_command_twice_sends_twice script_call on) as [_ H2].
  split.
  - apply H1. cbn. discriminate.
  - apply H2. reflexivity.
Defined.

(** A poll cycle that reads the level 9, then one whose volume read
    raises. *)
Lemma mute_after_poll_is_redundant_witness :
  let loud :=
    on_script fresh_player [Client.Returns (VInt 1); Client.Returns (VInt 9)] in
  let lost :=
    on_script fresh_player
      [Client.Returns (VInt 1); Client.Raises (DeviceError "timed out")] in
  let loud1 := snd (async_update script script_call loud) in
  let lost1 := snd (async_update script script_call lost) in
  mute_volume script script_call true loud1 = (inl tt, loud1) /\
  mute_volume script script_call false lost1 = (inl tt, lost1).
Proof.
  intros loud lost loud1 lost1. split.
  - destruct (mute_after_poll_is_redundant script_call loud eq_refl)
      as (_ & H & _).
    apply (H 9%Z eq_refl). discriminate.
  - destruct (mute_after_poll_is_redundant script_call lost eq_refl)
      as (_ & _ & H).
    exact (H (DeviceError "timed out") eq_refl).
Defined.

(** A poll cycle whose volume read returns [None]. *)
Lemma poll_stores_level_unchecked_witness :
  let w :=
    on_script fresh_player [Client.Returns (VInt 1); Client.Returns VNone] in
  let w1 := snd (async_update script script_call w) in
  volume_level (obj w1) = inr TypeError /\
  volume_up script script_call w1 = (inr TypeError, w1).
Proof.
  intros w w1.
  destruct (poll_stores_level_unchecked script_call w VNone []
              eq_refl eq_refl eq_refl) as (_ & H1 & H2 & _).
  split; [exact H1 | exact H2].
Defined.

(** One step up and one step down from the level 7. *)
Lemma volume_up_down_round_trip_witness :
  let w :=
    on_script paused_player
      [Client.Returns (VBool true); Client.Returns (VBool true)] in
  let w2 :=
    snd (volume_down script script_call (snd (volume_up script script_call w))) in
  calls w2 =
    [Client.set_volume_level (VInt 8); Client.set_volume_level (VInt 7)] /\
  obj w2 = with_skip_update true paused_player.
Proof.
  intros w w2.
  assert (R : (0 <= 7 <= 14)%Z) by lia.
  destruct (volume_up_down_round_trip script_call w 7 (VBool true)
              (VBool true) [Client.Returns (VBool true)] []
              eq_refl R eq_refl eq_refl eq_refl eq_refl) as (H1 & _ & H2).
  split; [exact H1 | exact H2].
Defined.



(** Up, full volume, up and down on a fresh entity. *)
Lemma commands_keep_volume_in_range_witness :
  let w :=
    on_script fresh_player
      [Client.Returns (VBool true); Client.Returns (VBool true);
       Client.Returns (VBool true); Client.Returns (VBool true)] in
  let es :=
    [Command VolumeUp; Command (SetVolumeLevel 1); Command VolumeUp;
     Command VolumeDown] in
  level_within 0 16 (obj (occur_all script_call es w)).
Proof.
  intros w es.
  assert (C : Forall is_command es) by (repeat constructor).
  assert (U : Forall unit_volume es).
  { repeat constructor; cbn; unfold Qle; cbn; lia. }
  assert (L : level_within 0 16 (obj w)).
  { exists 1%Q. split; [reflexivity |]. split; unfold Qle; cbn; lia. }
  exact (proj1 (commands_keep_volume_in_range script_call es w C U L)).
Defined.
